(** * scripts/add_broadcast_extension_target.py

    A shallow embedding of the Xcode project helper script and the
    properties of its identifier generator, its existence test, its
    confirmation prompt, its (absent) write path and its exit status.

    Text is modelled as [string] (a sequence of bytes, UTF-8 for the
    few non-ASCII characters the script prints); the file system is a
    finite map from paths to entries; [input], [print], [open] and
    [uuid.uuid4] act on an explicit world, and every computation
    returns the chronological trace of the effects it performed. *)

From Stdlib Require Import ZArith Ascii String List Bool Lia.
From stdpp Require Import gmap strings.

Local Open Scope Z_scope.
Local Open Scope string_scope.

(** ** Text primitives used by the script *)

Module Text.

(** [str.upper()] on the ASCII letters; the script applies it to
    hexadecimal digits only. *)
Definition ascii_upper (c : ascii) : ascii :=
  let n := nat_of_ascii c in
  if ((97 <=? n) && (n <=? 122))%nat then ascii_of_nat (n - 32) else c.

(** [str.lower()] on the ASCII letters, which is all the comparison of
    the operator's answer with ['yes'] depends on. *)
Definition ascii_lower (c : ascii) : ascii :=
  let n := nat_of_ascii c in
  if ((65 <=? n) && (n <=? 90))%nat then ascii_of_nat (n + 32) else c.

Fixpoint map_string (f : ascii -> ascii) (s : string) : string :=
  match s with
  | EmptyString => EmptyString
  | String c s' => String (f c) (map_string f s')
  end.

Definition upper : string -> string := map_string ascii_upper.
Definition lower : string -> string := map_string ascii_lower.

(** [s * n] for a string [s]. *)
Fixpoint repeat_string (s : string) (n : nat) : string :=
  match n with
  | O => EmptyString
  | S n' => s +:+ repeat_string s n'
  end.

(** [needle in hay], Python's substring test: [needle] is a prefix of
    some suffix of [hay]. *)
Fixpoint contains (needle hay : string) : bool :=
  String.prefix needle hay ||
  match hay with
  | EmptyString => false
  | String _ hay' => contains needle hay'
  end.

End Text.

(** ** The identifier generator *)

Module Uuid.

(** The digits of the [%x] conversion. *)
Definition hexdigits : string := "0123456789abcdef".

Definition hex_digit (d : Z) : ascii :=
  match String.get (Z.to_nat d) hexdigits with
  | Some c => c
  | None => "0"%char
  end.

(** ['%0<width>x' % v] for [0 <= v < 16 ^ width]: [width] digits, most
    significant first. *)
Fixpoint hex_fixed (width : nat) (v : Z) : string :=
  match width with
  | O => EmptyString
  | S w =>
      String (hex_digit (Z.land (Z.shiftr v (4 * Z.of_nat w)) 15))
             (hex_fixed w v)
  end.

(** [int.from_bytes(os.urandom(16))]: the sixteen random bytes read as
    one big-endian number.  A draw of the entropy source is any integer,
    reduced to the 128 bits that sixteen bytes hold. *)
Definition urandom16 (r : Z) : Z := r mod 2 ^ 128.

(** [uuid.uuid4()]: [UUID(bytes=os.urandom(16), version=4)], which sets
    the RFC 4122 variant and the version number in the random value. *)
Definition uuid4 (r : Z) : Z :=
  let i := urandom16 r in
  let i := Z.land i (Z.lnot (Z.shiftl 0xc000 48)) in
  let i := Z.lor i (Z.shiftl 0x8000 48) in
  let i := Z.land i (Z.lnot (Z.shiftl 0xf000 64)) in
  Z.lor i (Z.shiftl 4 76).

(** [UUID.hex]: ['%032x' % self.int]. *)
Definition hex (u : Z) : string := hex_fixed 32 u.

(** [generate_uuid()]: [uuid.uuid4().hex[:24].upper()], as a function of
    the draw the call takes from the entropy source. *)
Definition generate_uuid (r : Z) : string :=
  Text.upper (String.substring 0 24 (hex (uuid4 r))).

End Uuid.

(** ** The world the script runs in *)

Module Env.

(** A [pathlib.Path]: its anchor (the root, empty for a relative path)
    and its components. *)
Record path := Path { anchor : string; parts : list string }.

#[global] Instance path_eq_dec : EqDecision path.
Proof. solve_decision. Defined.

#[global] Instance path_countable : Countable path :=
  inj_countable' (fun p => (anchor p, parts p))
                 (fun ap => Path (fst ap) (snd ap))
                 (fun p => match p with Path _ _ => eq_refl end).

(** [Path.parent]: the last component is dropped; the anchor and the
    empty relative path are their own parents. *)
Definition parent (p : path) : path := Path (anchor p) (removelast (parts p)).

(** [p / name]. *)
Definition child (p : path) (name : string) : path :=
  Path (anchor p) (parts p ++ [name]).

Fixpoint join (sep : string) (l : list string) : string :=
  match l with
  | [] => EmptyString
  | [x] => x
  | x :: l' => x +:+ sep +:+ join sep l'
  end.

(** [str(p)]. *)
Definition path_str (p : path) : string :=
  match anchor p, parts p with
  | EmptyString, [] => "."
  | a, ps => a +:+ join "/" ps
  end.

(** What a path names on disk.  [Regular content] is a file that can be
    opened and read as text; [Unreadable] stands for every entry that
    exists but whose [open] raises (a directory, a file without
    permission).  A path that is not in the map does not exist. *)
Inductive entry :=
| Unreadable
| Regular (content : string).

(** The exceptions the script's calls can raise. *)
Inductive exn :=
| EOFError
| OSError.

(** The effects a run performs, in the order they happen. *)
Inductive event :=
| EvPrint (line : string)
| EvPrompt (prompt : string)
| EvExists (p : path)
| EvRead (p : path)
| EvWrite (p : path) (content : string)
| EvUuid (token : string).

(** The file system, the lines the operator will type, and the entropy
    source with the number of draws already taken from it. *)
Record world := World {
  fs : gmap path entry;
  stdin : list string;
  entropy : nat -> Z;
  drawn : nat
}.

(** A finished computation: what it returned or raised, the world it
    left, and the effects it performed. *)
Record run (A : Type) := Run {
  result : A;
  final : world;
  events : list event
}.
Arguments Run {A} _ _ _.
Arguments result {A} _.
Arguments final {A} _.
Arguments events {A} _.

(** Computations with state, effects trace and exceptions. *)
Definition M (A : Type) : Type := world -> run (exn + A).

Definition ret {A} (a : A) : M A := fun w => Run (inr a) w [].

Definition bind {A B} (m : M A) (k : A -> M B) : M B :=
  fun w =>
    match m w with
    | Run (inl e) w1 evs1 => Run (inl e) w1 evs1
    | Run (inr a) w1 evs1 =>
        match k a w1 with
        | Run r w2 evs2 => Run r w2 (evs1 ++ evs2)
        end
    end.

Definition emit (e : event) : M unit := fun w => Run (inr tt) w [e].

End Env.

Notation "x <- m ;; k" := (Env.bind m (fun x => k))
  (at level 100, m at next level, right associativity).
Notation "m ;; k" := (Env.bind m (fun _ => k))
  (at level 100, right associativity).

(** ** Library calls *)

Module Py.
Import Env.

(** [print(line)]. *)
Definition print (line : string) : M unit := emit (EvPrint line).

(** [input(prompt)]: shows the prompt and reads one line; [EOFError]
    when the input is exhausted. *)
Definition input (prompt : string) : M string :=
  fun w =>
    match stdin w with
    | [] => Run (inl EOFError) w [EvPrompt prompt]
    | line :: rest =>
        Run (inr line) (World (fs w) rest (entropy w) (drawn w))
            [EvPrompt prompt]
    end.

(** [p.exists()]. *)
Definition exists_ (p : path) : M bool :=
  fun w => Run (inr (bool_decide (is_Some (fs w !! p)))) w [EvExists p].

(** [with open(p, 'r') as f: return f.read()]. *)
Definition open_read (p : path) : M string :=
  fun w =>
    match fs w !! p with
    | Some (Regular content) => Run (inr content) w [EvRead p]
    | _ => Run (inl OSError) w []
    end.

(** [with open(p, 'w') as f: f.write(content)]. *)
Definition open_write (p : path) (content : string) : M unit :=
  fun w =>
    match fs w !! p with
    | Some Unreadable => Run (inl OSError) w []
    | _ =>
        Run (inr tt)
            (World (<[p := Regular content]> (fs w)) (stdin w)
                   (entropy w) (drawn w))
            [EvWrite p content]
    end.

(** One draw of sixteen bytes from the entropy source. *)
Definition draw : M Z :=
  fun w =>
    Run (inr (entropy w (drawn w)))
        (World (fs w) (stdin w) (entropy w) (S (drawn w))) [].

End Py.

(** ** The script *)

Module Script.
Import Env Py.

Definition generate_uuid : M string :=
  r <- draw ;;
  let token := Uuid.generate_uuid r in
  emit (EvUuid token) ;;
  ret token.

Definition read_pbxproj (project_path : path) : M string :=
  open_read project_path.

Definition write_pbxproj (project_path : path) (content : string) : M unit :=
  open_write project_path content.

Definition add_broadcast_extension_target (project_path : path) : M bool :=
  print "⚠️  WARNING: This script modifies your Xcode project file." ;;
  print "⚠️  Make sure you have a backup or commit your changes first!" ;;
  print "" ;;
  response <- input "Continue? (yes/no): " ;;
  if negb (String.eqb (Text.lower response) "yes") then
    print "Aborting." ;;
    ret false
  else
    content <- read_pbxproj project_path ;;
    extension_target_uuid <- generate_uuid ;;
    extension_product_uuid <- generate_uuid ;;
    extension_build_config_list_uuid <- generate_uuid ;;
    extension_debug_config_uuid <- generate_uuid ;;
    extension_release_config_uuid <- generate_uuid ;;
    extension_sources_phase_uuid <- generate_uuid ;;
    extension_frameworks_phase_uuid <- generate_uuid ;;
    extension_copy_files_phase_uuid <- generate_uuid ;;
    sample_handler_uuid <- generate_uuid ;;
    sample_handler_ref_uuid <- generate_uuid ;;
    info_plist_uuid <- generate_uuid ;;
    info_plist_ref_uuid <- generate_uuid ;;
    entitlements_uuid <- generate_uuid ;;
    entitlements_ref_uuid <- generate_uuid ;;
    if Text.contains "BroadcastExtension" content then
      print "❌ BroadcastExtension target already exists in the project!" ;;
      ret false
    else
      print "✅ Preparing to add BroadcastExtension target..." ;;
      print "" ;;
      print "⚠️  Automated Xcode project modification is complex and error-prone." ;;
      print "⚠️  Please add the Broadcast Extension target manually using Xcode:" ;;
      print "" ;;
      print "1. Open ios/pulse.xcworkspace in Xcode" ;;
      print "2. File → New → Target" ;;
      print "3. Choose 'Broadcast Upload Extension'" ;;
      print "4. Product Name: BroadcastExtension" ;;
      print "5. Bundle Identifier: com.mieweb.pulse.BroadcastExtension" ;;
      print "6. Language: Swift" ;;
      print "7. Click Finish" ;;
      print "8. Delete the auto-generated SampleHandler.swift" ;;
      print "9. Add ios/BroadcastExtension/SampleHandler.swift to the target" ;;
      print "10. Configure App Groups capability on both targets" ;;
      print "" ;;
      print "See SCREEN_RECORDING_SETUP.md for detailed instructions." ;;
      ret true.

(** [repo_root / 'ios' / 'pulse.xcodeproj' / 'project.pbxproj'] with
    [repo_root = Path(__file__).parent.parent]. *)
Definition project_path_of (file : path) : path :=
  let repo_root := parent (parent file) in
  child (child (child repo_root "ios") "pulse.xcodeproj") "project.pbxproj".

Definition main (file : path) : M Z :=
  let project_path := project_path_of file in
  present <- exists_ project_path ;;
  if negb present then
    print ("❌ Project file not found: " +:+ path_str project_path) ;;
    ret 1
  else
    print "Xcode Project Setup Helper" ;;
    print (Text.repeat_string "=" 50) ;;
    print "" ;;
    add_broadcast_extension_target project_path ;;
    ret 0.

(** [sys.exit(main())] under [if __name__ == '__main__']: the process
    exit status.  An exception nobody catches ends the interpreter with
    status 1. *)
Definition script (file : path) (w : world) : run Z :=
  let r := main file w in
  Run (match result r with
       | inr status => status
       | inl _ => 1
       end)
      (final r) (events r).

End Script.

(** ** Observations on runs, used to state the properties *)

Module Obs.
Import Env Py Script.

(** The lines the script prints. *)
Definition warning_modifies : string :=
  "⚠️  WARNING: This script modifies your Xcode project file.".
Definition warning_backup : string :=
  "⚠️  Make sure you have a backup or commit your changes first!".
Definition continue_prompt : string := "Continue? (yes/no): ".
Definition aborting : string := "Aborting.".
Definition target_name : string := "BroadcastExtension".
Definition already_exists : string :=
  "❌ BroadcastExtension target already exists in the project!".
Definition preparing : string :=
  "✅ Preparing to add BroadcastExtension target...".

(** The manual instructions printed on the path that returns [True],
    lines 71 to 86. *)
Definition manual_instructions : list string :=
  [ "";
    "⚠️  Automated Xcode project modification is complex and error-prone.";
    "⚠️  Please add the Broadcast Extension target manually using Xcode:";
    "";
    "1. Open ios/pulse.xcworkspace in Xcode";
    "2. File → New → Target";
    "3. Choose 'Broadcast Upload Extension'";
    "4. Product Name: BroadcastExtension";
    "5. Bundle Identifier: com.mieweb.pulse.BroadcastExtension";
    "6. Language: Swift";
    "7. Click Finish";
    "8. Delete the auto-generated SampleHandler.swift";
    "9. Add ios/BroadcastExtension/SampleHandler.swift to the target";
    "10. Configure App Groups capability on both targets";
    "";
    "See SCREEN_RECORDING_SETUP.md for detailed instructions." ].

Definition not_found (project_path : path) : string :=
  "❌ Project file not found: " +:+ path_str project_path.

(** The alphabet of an upper-cased [%x] rendering. *)
Definition upper_hexdigits : string := "0123456789ABCDEF".

(** The operator's answer passes the test of line 39. *)
Definition affirmative (response : string) : Prop :=
  Text.lower response = "yes".

(** What every call shows before it reads the answer. *)
Definition preamble : list event :=
  [ EvPrint warning_modifies; EvPrint warning_backup; EvPrint "";
    EvPrompt continue_prompt ].

(** The fourteen identifiers a call generates in a world: draws
    [drawn w], [drawn w + 1], ... of the entropy source. *)
Definition tokens (w : world) : list string :=
  map (fun i => Uuid.generate_uuid (entropy w (i + drawn w)%nat)) (seq 0 14).

(** The world after the operator's answer has been read. *)
Definition answered (w : world) (rest : list string) : world :=
  World (fs w) rest (entropy w) (drawn w).

(** The world after the answer has been read and the fourteen
    identifiers have been drawn. *)
Definition allocated (w : world) (rest : list string) : world :=
  World (fs w) rest (entropy w) (14 + drawn w).

Definition is_write (e : event) : bool :=
  match e with EvWrite _ _ => true | _ => false end.

Definition is_print (e : event) : bool :=
  match e with EvPrint _ => true | _ => false end.

Definition is_uuid (e : event) : bool :=
  match e with EvUuid _ => true | _ => false end.

(** No event of the list is a write. *)
Definition no_write (evs : list event) : bool :=
  forallb (fun e => negb (is_write e)) evs.

(** Every write of the list comes after a prompt; [prompted] tells
    whether a prompt was already seen. *)
Fixpoint gated (prompted : bool) (evs : list event) : bool :=
  match evs with
  | [] => true
  | EvPrompt _ :: evs' => gated true evs'
  | EvWrite _ _ :: evs' => prompted && gated prompted evs'
  | _ :: evs' => gated prompted evs'
  end.

(** What [main] shows before it calls
    [add_broadcast_extension_target]. *)
Definition banner (p : path) : list event :=
  [ EvExists p; EvPrint "Xcode Project Setup Helper";
    EvPrint (Text.repeat_string "=" 50); EvPrint "" ].

(** What the existence test of line 62 prints. *)
Definition verdict (content : string) : list event :=
  if Text.contains target_name content
  then [EvPrint already_exists]
  else EvPrint preparing :: map EvPrint manual_instructions.

(** The ways a call of [add_broadcast_extension_target] ends. *)
Inductive add_outcome (p : path) (w : world) : run (exn + bool) -> Prop :=
| EndOfInput :
    stdin w = [] ->
    add_outcome p w (Run (inl EOFError) w preamble)
| Declined r rest :
    stdin w = r :: rest -> ~ affirmative r ->
    add_outcome p w
      (Run (inr false) (answered w rest) (preamble ++ [EvPrint aborting]))
| ReadFailed r rest :
    stdin w = r :: rest -> affirmative r ->
    (forall content, fs w !! p <> Some (Regular content)) ->
    add_outcome p w (Run (inl OSError) (answered w rest) preamble)
| Checked r rest content :
    stdin w = r :: rest -> affirmative r ->
    fs w !! p = Some (Regular content) ->
    add_outcome p w
      (Run (inr (negb (Text.contains target_name content)))
           (allocated w rest)
           (preamble ++ EvRead p :: map EvUuid (tokens w) ++ verdict content)).

(** Worlds used in the examples: the script lives in [scripts/] of a
    checkout at [/repo]; the descriptor holds [doc]; the operator types
    [answers]; the n-th draw of the entropy source is [n * 2 ^ 64]. *)
Definition script_file : path :=
  Path "/" ["repo"; "scripts"; "add_broadcast_extension_target.py"].

Definition descriptor : path := project_path_of script_file.

Definition sample_world (doc : string) (answers : list string) : world :=
  World {[ descriptor := Regular doc ]} answers
        (fun n => Z.of_nat n * 2 ^ 64) 0.

End Obs.

(** ** Further observations on runs *)

Module Cover.
Import Env Py Script Obs.

(** The spellings of [yes], in every mix of letter cases. *)
Definition accepted_answers : list string :=
  [ "yes"; "yeS"; "yEs"; "yES"; "Yes"; "YeS"; "YEs"; "YES" ].

Definition is_read (e : event) : bool :=
  match e with EvRead _ => true | _ => false end.

(** The world with another entropy source. *)
Definition with_entropy (w : world) (source : nat -> Z) : world :=
  World (fs w) (stdin w) source (drawn w).

(** The digits a token can show for the RFC 4122 variant. *)
Definition variant_digits : list ascii := [ "8"; "9"; "A"; "B" ]%char.

(** The place of the descriptor below the repository root, line 93. *)
Definition descriptor_parts : list string :=
  [ "ios"; "pulse.xcodeproj"; "project.pbxproj" ].

End Cover.

(** ** Facts about the text primitives *)

Section TextFacts.
Import Text.

Lemma length_map_string f s : String.length (map_string f s) = String.length s.
Proof. induction s as [|c s IH]; simpl; congruence. Qed.

Lemma append_nil (t : string) : EmptyString +:+ t = t.
Proof. reflexivity. Qed.

Lemma append_cons c (s t : string) : String c s +:+ t = String c (s +:+ t).
Proof. reflexivity. Qed.

Lemma prefix_spec needle hay :
  String.prefix needle hay = true <-> exists post, hay = needle +:+ post.
Proof.
  revert hay. induction needle as [|c needle IH]; intros hay.
  - split; [intros _; now exists hay | intros _; now destruct hay].
  - destruct hay as [|d hay]; simpl.
    + split; [discriminate | intros [post H]; discriminate].
    + destruct (Ascii.ascii_dec c d) as [->|Hne].
      * rewrite IH. split; intros [post H]; exists post;
          rewrite append_cons in *; congruence.
      * split; [discriminate |].
        intros [post H]. rewrite append_cons in H. congruence.
Qed.

(** [contains] is Python's [in]: the needle occurs somewhere in the
    haystack. *)
Lemma contains_spec needle hay :
  contains needle hay = true <->
  exists pre post, hay = pre +:+ needle +:+ post.
Proof.
  induction hay as [|d hay IH].
  - cbn [contains]. rewrite orb_false_r, prefix_spec. split.
    + intros [post H]. exists EmptyString, post. exact H.
    + intros [pre [post H]].
      destruct pre as [|c pre]; [now exists post | discriminate].
  - cbn [contains]. rewrite orb_true_iff, prefix_spec, IH. split.
    + intros [[post H] | [pre [post H]]].
      * exists EmptyString, post. exact H.
      * exists (String d pre), post. rewrite append_cons. now rewrite H.
    + intros [pre [post H]]. destruct pre as [|c pre].
      * left. exists post. exact H.
      * right. exists pre, post. rewrite append_cons in H. congruence.
Qed.

End TextFacts.

(** ** Facts about the identifier generator *)

Section UuidFacts.
Import Text Uuid Obs.



Lemma nibble_range x : 0 <= Z.land x 15 < 16.
Proof.
  change 15 with (Z.ones 4). rewrite Z.land_ones by lia.
  apply Z.mod_pos_bound. reflexivity.
Qed.

Lemma nibble_cases d :
  0 <= d < 16 ->
  In d [0; 1; 2; 3; 4; 5; 6; 7; 8; 9; 10; 11; 12; 13; 14; 15].
Proof. intros H. simpl. lia. Qed.

Lemma upper_hex_digit_alphabet d :
  0 <= d < 16 ->
  In (ascii_upper (hex_digit d)) (list_ascii_of_string upper_hexdigits).
Proof.
  intros H. apply nibble_cases in H. simpl in H.
  repeat (destruct H as [<- | H]; [vm_compute; tauto |]).
  contradiction.
Qed.

Lemma upper_hex_digit_inj a b :
  0 <= a < 16 -> 0 <= b < 16 ->
  ascii_upper (hex_digit a) = ascii_upper (hex_digit b) -> a = b.
Proof.
  intros Ha Hb. apply nibble_cases in Ha, Hb. simpl in Ha, Hb.
  repeat (destruct Ha as [<- | Ha]; [| ]);
    try contradiction;
    repeat (destruct Hb as [<- | Hb]; [| ]);
    try contradiction;
    vm_compute; intros E; (reflexivity || discriminate E).
Qed.

Lemma length_hex_fixed n v : String.length (hex_fixed n v) = n.
Proof. induction n as [|n IH]; simpl; congruence. Qed.

Lemma substring_hex_fixed n k v :
  String.substring 0 n (hex_fixed (n + k) v)
  = hex_fixed n (Z.shiftr v (4 * Z.of_nat k)).
Proof.
  induction n as [|n IH].
  - simpl. now destruct (hex_fixed k v).
  - cbn [Nat.add hex_fixed String.substring]. rewrite IH. f_equal.
    rewrite Z.shiftr_shiftr by lia. do 3 f_equal. lia.
Qed.

(** The token is the upper-cased 24-digit rendering of the leading 96
    bits of the UUID. *)
Lemma generate_uuid_leading r :
  generate_uuid r = upper (hex_fixed 24 (Z.shiftr (uuid4 r) 32)).
Proof.
  unfold generate_uuid, hex.
  change 32%nat with (24 + 8)%nat. now rewrite substring_hex_fixed.
Qed.

Lemma upper_hex_fixed_alphabet n v :
  Forall (fun c => In c (list_ascii_of_string upper_hexdigits))
         (list_ascii_of_string (upper (hex_fixed n v))).
Proof.
  induction n as [|n IH]; cbn [hex_fixed upper map_string list_ascii_of_string].
  - constructor.
  - constructor; [| exact IH].
    apply upper_hex_digit_alphabet, nibble_range.
Qed.

Lemma upper_hex_fixed_inj n a b :
  upper (hex_fixed n a) = upper (hex_fixed n b) ->
  a mod 2 ^ (4 * Z.of_nat n) = b mod 2 ^ (4 * Z.of_nat n).
Proof.
  induction n as [|n IH]; intros E.
  - change (4 * Z.of_nat 0) with 0. now rewrite !Z.mod_1_r.
  - cbn [hex_fixed upper map_string] in E. injection E as Ehd Etl.
    specialize (IH Etl).
    apply upper_hex_digit_inj in Ehd; try apply nibble_range.
    change 15 with (Z.ones 4) in Ehd.
    rewrite !Z.land_ones, !Z.shiftr_div_pow2 in Ehd by lia.
    replace (4 * Z.of_nat (S n)) with (4 * Z.of_nat n + 4) by lia.
    rewrite Z.pow_add_r by lia.
    assert (0 < 2 ^ (4 * Z.of_nat n)) by (apply Z.pow_pos_nonneg; lia).
    rewrite !Z.rem_mul_r by lia. congruence.
Qed.

Lemma uuid4_high_bits r n : 128 <= n -> Z.testbit (uuid4 r) n = false.
Proof.
  intros Hn. unfold uuid4, urandom16.
  rewrite Z.lor_spec, Z.land_spec, Z.lor_spec, Z.land_spec.
  rewrite Z.mod_pow2_bits_high by lia. simpl andb.
  rewrite !Z.shiftl_spec by lia.
  rewrite (Z.bits_above_log2 0x8000) by (simpl Z.log2; lia).
  rewrite (Z.bits_above_log2 4) by (simpl Z.log2; lia).
  reflexivity.
Qed.

Lemma uuid4_range r : 0 <= uuid4 r < 2 ^ 128.
Proof.
  assert (Hnn : 0 <= uuid4 r).
  { unfold uuid4, urandom16.
    assert (0 <= r mod 2 ^ 128) by (apply Z.mod_pos_bound; reflexivity).
    apply Z.lor_nonneg. split; [| discriminate].
    apply Z.land_nonneg. left.
    apply Z.lor_nonneg. split; [| discriminate].
    apply Z.land_nonneg. now left. }
  split; [exact Hnn |].
  destruct (Z.eq_dec (uuid4 r) 0) as [-> | Hz]; [reflexivity |].
  apply Z.log2_lt_pow2; [lia |].
  destruct (Z.lt_ge_cases (Z.log2 (uuid4 r)) 128) as [Hlt | Hge]; [exact Hlt |].
  pose proof (Z.bit_log2 (uuid4 r) ltac:(lia)) as Hbit.
  rewrite uuid4_high_bits in Hbit by exact Hge. discriminate.
Qed.

Lemma leading_range r : 0 <= Z.shiftr (uuid4 r) 32 < 2 ^ 96.
Proof.
  pose proof (uuid4_range r) as [H0 H1].
  rewrite Z.shiftr_div_pow2 by lia. split.
  - apply Z.div_pos; [exact H0 | reflexivity].
  - apply Z.div_lt_upper_bound; [reflexivity |].
    now rewrite <- Z.pow_add_r by lia.
Qed.

(** Two draws give the same token exactly when their UUIDs agree on the
    leading 96 bits. *)
Lemma generate_uuid_eq_iff r1 r2 :
  generate_uuid r1 = generate_uuid r2 <->
  Z.shiftr (uuid4 r1) 32 = Z.shiftr (uuid4 r2) 32.
Proof.
  rewrite !generate_uuid_leading. split.
  - intros E. apply upper_hex_fixed_inj in E.
    change (4 * Z.of_nat 24) with 96 in E.
    rewrite !Z.mod_small in E by apply leading_range. exact E.
  - now intros ->.
Qed.

End UuidFacts.

(** ** Stepping through a computation *)

Section Stepping.
Import Env Py Script Obs.

Lemma bind_ok {A B} (m : M A) (k : A -> M B) w a w1 evs1 :
  m w = Run (inr a) w1 evs1 ->
  bind m k w
  = match k a w1 with
    | Run r w2 evs2 => Run r w2 (evs1 ++ evs2)
    end.
Proof. intros H. unfold bind. now rewrite H. Qed.

Lemma bind_raise {A B} (m : M A) (k : A -> M B) w e w1 evs1 :
  m w = Run (inl e) w1 evs1 ->
  bind m k w = Run (inl e) w1 evs1.
Proof. intros H. unfold bind. now rewrite H. Qed.

Lemma print_run line w : print line w = Run (inr tt) w [EvPrint line].
Proof. reflexivity. Qed.

Lemma ret_run {A} (a : A) w : ret a w = Run (inr a) w [].
Proof. reflexivity. Qed.

Lemma input_eof prompt w :
  stdin w = [] -> input prompt w = Run (inl EOFError) w [EvPrompt prompt].
Proof. intros H. unfold input. now rewrite H. Qed.

Lemma input_line prompt w line rest :
  stdin w = line :: rest ->
  input prompt w = Run (inr line) (answered w rest) [EvPrompt prompt].
Proof. intros H. unfold input. now rewrite H. Qed.

Lemma read_regular p w content :
  fs w !! p = Some (Regular content) ->
  read_pbxproj p w = Run (inr content) w [EvRead p].
Proof. intros H. unfold read_pbxproj, open_read. now rewrite H. Qed.

Lemma read_fails p w :
  (forall content, fs w !! p <> Some (Regular content)) ->
  read_pbxproj p w = Run (inl OSError) w [].
Proof.
  intros H. unfold read_pbxproj, open_read.
  destruct (fs w !! p) as [[|content]|] eqn:E; try reflexivity.
  now destruct (H content).
Qed.

Lemma generate_uuid_run w :
  generate_uuid w
  = Run (inr (Uuid.generate_uuid (entropy w (drawn w))))
        (World (fs w) (stdin w) (entropy w) (S (drawn w)))
        [EvUuid (Uuid.generate_uuid (entropy w (drawn w)))].
Proof. reflexivity. Qed.

Lemma affirmative_eqb response :
  affirmative response <-> String.eqb (Text.lower response) "yes" = true.
Proof. unfold affirmative. now rewrite String.eqb_eq. Qed.

Lemma not_affirmative_eqb response :
  ~ affirmative response <-> String.eqb (Text.lower response) "yes" = false.
Proof. unfold affirmative. now rewrite String.eqb_neq. Qed.

End Stepping.

(** Reduce the finished continuations and the record projections. *)
Ltac settle :=
  cbn [app Env.fs Env.stdin Env.entropy Env.drawn Obs.answered].

(** One call that returns: replace the [bind] by its continuation. *)
Ltac step :=
  first
    [ rewrite (bind_ok _ _ _ _ _ _ (print_run _ _))
    | rewrite (bind_ok _ _ _ _ _ _ (generate_uuid_run _)) ];
  settle.

(** ** The five ways a call of [add_broadcast_extension_target] ends *)

Section RunFacts.
Import Env Py Script Obs.

Lemma add_eof p w :
  stdin w = [] ->
  add_broadcast_extension_target p w = Run (inl EOFError) w preamble.
Proof.
  intros Hin. unfold add_broadcast_extension_target.
  do 3 step. rewrite (bind_raise _ _ _ _ _ _ (input_eof _ _ Hin)).
  reflexivity.
Qed.

Lemma add_declined p w r rest :
  stdin w = r :: rest -> ~ affirmative r ->
  add_broadcast_extension_target p w
  = Run (inr false) (answered w rest) (preamble ++ [EvPrint aborting]).
Proof.
  intros Hin Hno. apply not_affirmative_eqb in Hno.
  unfold add_broadcast_extension_target.
  do 3 step. rewrite (bind_ok _ _ _ _ _ _ (input_line _ _ _ _ Hin)). settle.
  rewrite Hno. cbn [negb]. step. reflexivity.
Qed.

Lemma add_unreadable p w r rest :
  stdin w = r :: rest -> affirmative r ->
  (forall content, fs w !! p <> Some (Regular content)) ->
  add_broadcast_extension_target p w
  = Run (inl OSError) (answered w rest) preamble.
Proof.
  intros Hin Hyes Hfs. apply affirmative_eqb in Hyes.
  unfold add_broadcast_extension_target.
  do 3 step. rewrite (bind_ok _ _ _ _ _ _ (input_line _ _ _ _ Hin)). settle.
  rewrite Hyes. cbn [negb].
  rewrite (bind_raise _ _ _ _ _ _ (read_fails p (answered w rest) Hfs)).
  reflexivity.
Qed.

Lemma add_exists p w r rest content :
  stdin w = r :: rest -> affirmative r ->
  fs w !! p = Some (Regular content) ->
  Text.contains target_name content = true ->
  add_broadcast_extension_target p w
  = Run (inr false) (allocated w rest)
        (preamble ++ EvRead p :: map EvUuid (tokens w)
                  ++ [EvPrint already_exists]).
Proof.
  intros Hin Hyes Hfs Hc. apply affirmative_eqb in Hyes.
  unfold target_name in Hc.
  unfold add_broadcast_extension_target.
  do 3 step. rewrite (bind_ok _ _ _ _ _ _ (input_line _ _ _ _ Hin)). settle.
  rewrite Hyes. cbn [negb].
  rewrite (bind_ok _ _ _ _ _ _ (read_regular p (answered w rest) _ Hfs)).
  settle.
  do 14 step. rewrite Hc. step. reflexivity.
Qed.

Lemma add_manual p w r rest content :
  stdin w = r :: rest -> affirmative r ->
  fs w !! p = Some (Regular content) ->
  Text.contains target_name content = false ->
  add_broadcast_extension_target p w
  = Run (inr true) (allocated w rest)
        (preamble ++ EvRead p :: map EvUuid (tokens w)
                  ++ EvPrint preparing :: map EvPrint manual_instructions).
Proof.
  intros Hin Hyes Hfs Hc. apply affirmative_eqb in Hyes.
  unfold target_name in Hc.
  unfold add_broadcast_extension_target.
  do 3 step. rewrite (bind_ok _ _ _ _ _ _ (input_line _ _ _ _ Hin)). settle.
  rewrite Hyes. cbn [negb].
  rewrite (bind_ok _ _ _ _ _ _ (read_regular p (answered w rest) _ Hfs)).
  settle.
  do 14 step. rewrite Hc. do 17 step. reflexivity.
Qed.

End RunFacts.

(** ** Every call ends in one of the listed ways; [main] and the script *)

Section MainFacts.
Import Env Py Script Obs.

Lemma add_checked p w r rest content :
  stdin w = r :: rest -> affirmative r ->
  fs w !! p = Some (Regular content) ->
  add_broadcast_extension_target p w
  = Run (inr (negb (Text.contains target_name content))) (allocated w rest)
        (preamble ++ EvRead p :: map EvUuid (tokens w) ++ verdict content).
Proof.
  intros Hin Hyes Hfs. unfold verdict.
  destruct (Text.contains target_name content) eqn:Hc.
  - now apply (add_exists p w r rest content).
  - now apply (add_manual p w r rest content).
Qed.

Lemma add_outcome_total p w :
  add_outcome p w (add_broadcast_extension_target p w).
Proof.
  destruct (stdin w) as [|r rest] eqn:Hin.
  - rewrite add_eof by exact Hin. now constructor.
  - destruct (String.eqb (Text.lower r) "yes") eqn:Hr.
    + apply affirmative_eqb in Hr.
      destruct (fs w !! p) as [[|content]|] eqn:Hfs.
      * rewrite (add_unreadable p w r rest) by (try rewrite Hfs; easy).
        apply (ReadFailed p w r rest); try rewrite Hfs; easy.
      * rewrite (add_checked p w r rest content) by easy.
        now apply (Checked p w r rest content).
      * rewrite (add_unreadable p w r rest) by (try rewrite Hfs; easy).
        apply (ReadFailed p w r rest); try rewrite Hfs; easy.
    + apply not_affirmative_eqb in Hr.
      rewrite (add_declined p w r rest) by easy. now apply (Declined p w r rest).
Qed.

Lemma exists_run p w :
  exists_ p w = Run (inr (bool_decide (is_Some (fs w !! p)))) w [EvExists p].
Proof. reflexivity. Qed.

Lemma main_missing file w :
  fs w !! project_path_of file = None ->
  main file w
  = Run (inr 1) w
        [ EvExists (project_path_of file);
          EvPrint (not_found (project_path_of file)) ].
Proof.
  intros Hfs. unfold main.
  rewrite (bind_ok _ _ _ _ _ _ (exists_run _ w)). settle.
  rewrite Hfs, bool_decide_false by (intros [? ?]; discriminate).
  cbn [negb]. step. reflexivity.
Qed.

Lemma main_present file w :
  is_Some (fs w !! project_path_of file) ->
  main file w
  = match add_broadcast_extension_target (project_path_of file) w with
    | Run (inl e) w1 evs => Run (inl e) w1 (banner (project_path_of file) ++ evs)
    | Run (inr _) w1 evs => Run (inr 0) w1 (banner (project_path_of file) ++ evs)
    end.
Proof.
  intros Hfs. unfold main.
  rewrite (bind_ok _ _ _ _ _ _ (exists_run _ w)). settle.
  rewrite bool_decide_true by exact Hfs.
  cbn [negb]. do 3 step. unfold bind at 1.
  destruct (add_broadcast_extension_target (project_path_of file) w)
    as [[e|b] w1 evs]; unfold ret; cbn [app]; rewrite ?app_nil_r;
    reflexivity.
Qed.

Lemma script_missing file w :
  fs w !! project_path_of file = None ->
  script file w
  = Run 1 w [ EvExists (project_path_of file);
              EvPrint (not_found (project_path_of file)) ].
Proof. intros Hfs. unfold script. now rewrite main_missing. Qed.

Lemma script_present file w :
  is_Some (fs w !! project_path_of file) ->
  script file w
  = let r := add_broadcast_extension_target (project_path_of file) w in
    Run (match result r with inr _ => 0 | inl _ => 1 end)
        (final r) (banner (project_path_of file) ++ events r).
Proof.
  intros Hfs. unfold script. rewrite main_present by exact Hfs.
  destruct (add_broadcast_extension_target (project_path_of file) w)
    as [[e|b] w1 evs]; reflexivity.
Qed.

Lemma no_write_app evs1 evs2 :
  no_write (evs1 ++ evs2) = no_write evs1 && no_write evs2.
Proof. apply forallb_app. Qed.

Lemma no_write_uuids l : no_write (map EvUuid l) = true.
Proof. induction l; [reflexivity | exact IHl]. Qed.

Lemma no_write_prints l : no_write (map EvPrint l) = true.
Proof. induction l; [reflexivity | exact IHl]. Qed.

Lemma no_write_verdict content : no_write (verdict content) = true.
Proof.
  unfold verdict. destruct (Text.contains target_name content);
    [reflexivity | apply (no_write_prints (preparing :: manual_instructions))].
Qed.

Lemma gated_no_write b evs : no_write evs = true -> gated b evs = true.
Proof.
  revert b. induction evs as [|e evs IH]; intros b H; [reflexivity |].
  cbn [no_write forallb] in H. apply andb_true_iff in H as [He H].
  destruct e; cbn [gated]; try (apply IH; exact H). discriminate He.
Qed.

(** No call writes, whichever way it ends. *)
Lemma add_no_write p w :
  fs (final (add_broadcast_extension_target p w)) = fs w /\
  no_write (events (add_broadcast_extension_target p w)) = true.
Proof.
  destruct (add_outcome_total p w); cbn [final events]; split;
    try reflexivity.
  rewrite no_write_app. cbn [no_write forallb is_write negb andb].
  fold (no_write (map EvUuid (tokens w) ++ verdict content)).
  rewrite no_write_app, no_write_uuids, no_write_verdict. reflexivity.
Qed.

Lemma script_no_write file w :
  fs (final (script file w)) = fs w /\ no_write (events (script file w)) = true.
Proof.
  destruct (fs w !! project_path_of file) as [e|] eqn:Hfs.
  - rewrite script_present by (rewrite Hfs; eauto).
    cbv zeta. cbn [final events].
    destruct (add_no_write (project_path_of file) w) as [H1 H2].
    split; [exact H1 |].
    rewrite no_write_app, H2. reflexivity.
  - rewrite script_missing by exact Hfs. split; reflexivity.
Qed.

End MainFacts.

(** ** Runs of the script on concrete worlds *)

Section Examples.
Import Env Py Script Obs.

Example generate_uuid_zero :
  Uuid.generate_uuid 0 = "000000000000400080000000".
Proof. vm_compute. reflexivity. Qed.

Example generate_uuid_ones :
  Uuid.generate_uuid (2 ^ 128 - 1) = "FFFFFFFFFFFF4FFFBFFFFFFF".
Proof. vm_compute. reflexivity. Qed.

Example contains_examples :
  Text.contains "ab" "xxabyy" = true /\ Text.contains "ab" "xxaByy" = false
  /\ Text.contains "" "" = true /\ Text.contains "a" "" = false.
Proof. repeat split; reflexivity. Qed.

Example descriptor_path :
  path_str descriptor = "/repo/ios/pulse.xcodeproj/project.pbxproj".
Proof. vm_compute. reflexivity. Qed.

Example lower_examples :
  Text.lower "YeS" = "yes" /\ Text.lower "y" = "y" /\ Text.lower "no" = "no".
Proof. repeat split; reflexivity. Qed.

(** [write_pbxproj], had it been called, would show in the trace and in
    the file system. *)
Example write_pbxproj_writes :
  let r := write_pbxproj descriptor "new" (sample_world "old" []) in
  events r = [EvWrite descriptor "new"] /\
  fs (final r) !! descriptor = Some (Regular "new") /\
  no_write (events r) = false.
Proof. vm_compute. repeat split; reflexivity. Qed.

Example gated_rejects_early_write :
  gated false [EvWrite descriptor "new"; EvPrompt continue_prompt] = false /\
  gated false [EvPrompt continue_prompt; EvWrite descriptor "new"] = true.
Proof. split; reflexivity. Qed.

Example script_on_fresh_document :
  let r := script script_file (sample_world "// !$*UTF8*$!" ["yes"]) in
  result r = 0 /\
  fs (final r) !! descriptor = Some (Regular "// !$*UTF8*$!") /\
  drawn (final r) = 14%nat.
Proof. vm_compute. repeat split; reflexivity. Qed.

Example script_without_project :
  result (script script_file (World ∅ ["yes"] (fun _ => 0) 0)) = 1.
Proof. vm_compute. reflexivity. Qed.

Example script_unreadable_project :
  result (script script_file
            (World {[ descriptor := Unreadable ]} ["yes"] (fun _ => 0) 0)) = 1.
Proof. vm_compute. reflexivity. Qed.

End Examples.

(** ** The properties *)

Section Claims.
Import Env Py Script Obs.
Local Open Scope list_scope.

Lemma no_write_In evs p content :
  no_write evs = true -> ~ In (EvWrite p content) evs.
Proof.
  intros H Hin. unfold no_write in H. rewrite forallb_forall in H.
  specialize (H _ Hin). discriminate H.
Qed.

Lemma sample_lookup doc answers :
  fs (sample_world doc answers) !! descriptor = Some (Regular doc).
Proof. apply lookup_singleton_eq. Qed.

(** C1, as stated, fails: on a descriptor without the name, a second
    confirmed call does not report that the target already exists; it
    returns [True] again, because the first call wrote nothing. *)
Lemma second_call_not_already_exists :
  ~ (forall p w r1 r2 rest content,
        stdin w = r1 :: r2 :: rest -> affirmative r1 -> affirmative r2 ->
        fs w !! p = Some (Regular content) ->
        Text.contains target_name content = false ->
        let first := add_broadcast_extension_target p w in
        let second := add_broadcast_extension_target p (final first) in
        result first = inr true /\
        result second = inr false /\
        In (EvPrint already_exists) (events second) /\
        fs (final second) = fs (final first)).
Proof.
  intros H.
  destruct (H descriptor (sample_world "" ["yes"; "yes"]) "yes" "yes" [] ""
              eq_refl eq_refl eq_refl (sample_lookup _ _) eq_refl)
    as (_ & Hsecond & _).
  vm_compute in Hsecond. discriminate Hsecond.
Qed.

(** C1, amended: when the descriptor text contains [BroadcastExtension]
    (a case-sensitive substring test, which covers every descriptor with
    a Target of that name), a confirmed call reports that the target
    already exists and returns [False]; when it does not, a confirmed
    call returns [True], and so does a second one.  In both cases neither
    call writes, and the file system after the second call is the one
    after the first, which is the original one. *)
Theorem add_target_rerun p w r1 r2 rest content :
  stdin w = r1 :: r2 :: rest -> affirmative r1 -> affirmative r2 ->
  fs w !! p = Some (Regular content) ->
  let first := add_broadcast_extension_target p w in
  let second := add_broadcast_extension_target p (final first) in
  fs (final first) = fs w /\
  fs (final second) = fs (final first) /\
  no_write (events first ++ events second) = true /\
  if Text.contains target_name content
  then result first = inr false /\ result second = inr false /\
       List.last (events first) (EvPrint "") = EvPrint already_exists /\
       List.last (events second) (EvPrint "") = EvPrint already_exists
  else result first = inr true /\ result second = inr true.
Proof.
  intros Hin Hr1 Hr2 Hfs. cbv zeta.
  rewrite (add_checked p w r1 (r2 :: rest) content Hin Hr1 Hfs).
  cbn [final].
  rewrite (add_checked p (allocated w (r2 :: rest)) r2 rest content
             eq_refl Hr2 Hfs).
  cbn [final events result].
  split; [reflexivity |]. split; [reflexivity |]. split.
  - rewrite !no_write_app. cbn [no_write forallb is_write negb andb].
    fold (no_write (map EvUuid (tokens w) ++ verdict content)).
    fold (no_write (map EvUuid (tokens (allocated w (r2 :: rest)))
                      ++ verdict content)).
    now rewrite !no_write_app, !no_write_uuids, !no_write_verdict.
  - unfold verdict. destruct (Text.contains target_name content);
      cbn [negb]; repeat split; reflexivity.
Qed.

Lemma add_target_rerun_witness :
  let p := descriptor in
  let w := sample_world "name = BroadcastExtension;" ["yes"; "YES"] in
  let first := add_broadcast_extension_target p w in
  let second := add_broadcast_extension_target p (final first) in
  fs (final first) = fs w /\
  fs (final second) = fs (final first) /\
  no_write (events first ++ events second) = true /\
  if Text.contains target_name "name = BroadcastExtension;"
  then result first = inr false /\ result second = inr false /\
       List.last (events first) (EvPrint "") = EvPrint already_exists /\
       List.last (events second) (EvPrint "") = EvPrint already_exists
  else result first = inr true /\ result second = inr true.
Proof.
  apply (add_target_rerun descriptor
           (sample_world "name = BroadcastExtension;" ["yes"; "YES"])
           "yes" "YES" [] "name = BroadcastExtension;").
  - reflexivity.
  - reflexivity.
  - reflexivity.
  - apply sample_lookup.
Defined.

(** C2, as stated, fails: a call that returns [True] has written
    nothing to the descriptor. *)
Lemma success_without_write :
  ~ (forall p w,
        result (add_broadcast_extension_target p w) = inr true ->
        exists content',
          In (EvWrite p content')
             (events (add_broadcast_extension_target p w)) /\
          fs (final (add_broadcast_extension_target p w)) !! p
          = Some (Regular content')).
Proof.
  intros H.
  destruct (H descriptor (sample_world "" ["yes"])) as (c & Hin & _).
  - vm_compute. reflexivity.
  - revert Hin. apply no_write_In, add_no_write.
Qed.

(** C2, amended: a call that returns [True] inserts nothing and does not
    write: it leaves the file system as it was, performs no write, and
    ends by printing the instructions for adding the target by hand. *)
Theorem success_leaves_document p w :
  result (add_broadcast_extension_target p w) = inr true ->
  fs (final (add_broadcast_extension_target p w)) = fs w /\
  no_write (events (add_broadcast_extension_target p w)) = true /\
  exists evs : list event,
    events (add_broadcast_extension_target p w)
    = evs ++ map EvPrint manual_instructions.
Proof.
  intros Hres. destruct (add_no_write p w) as [Hfs Hnw].
  split; [exact Hfs |]. split; [exact Hnw |].
  revert Hres. clear Hfs Hnw.
  destruct (add_outcome_total p w) as [Hin | r rest Hin Hr | r rest Hin Hr Hfs
                                      | r rest content Hin Hr Hfs];
    cbn [result events]; intros Hres; try discriminate Hres.
  unfold verdict.
  destruct (Text.contains target_name content); [discriminate Hres |].
  exists (preamble ++ EvRead p :: map EvUuid (tokens w) ++ [EvPrint preparing]).
  rewrite <- !app_assoc. cbn [app]. rewrite <- app_assoc. reflexivity.
Qed.

Lemma success_leaves_document_witness :
  fs (final (add_broadcast_extension_target descriptor
               (sample_world "" ["yes"])))
  = fs (sample_world "" ["yes"]) /\
  no_write (events (add_broadcast_extension_target descriptor
                      (sample_world "" ["yes"]))) = true /\
  exists evs : list event,
    events (add_broadcast_extension_target descriptor
              (sample_world "" ["yes"]))
    = evs ++ map EvPrint manual_instructions.
Proof.
  apply (success_leaves_document descriptor (sample_world "" ["yes"])).
  vm_compute. reflexivity.
Defined.

(** C3, as stated, fails: the generator returns a token that is already
    a key of the graph. *)
Lemma generate_uuid_returns_existing_key :
  ~ (forall (keys : list string) (w : world) (token : string),
        result (generate_uuid w) = inr token -> ~ In token keys).
Proof.
  intros H.
  apply (H ["000000000000400080000000"] (sample_world "" [])
           "000000000000400080000000").
  - vm_compute. reflexivity.
  - left. reflexivity.
Qed.

(** C3, amended: the generator takes no key set and checks no
    membership; its token is the upper-cased first 24 hexadecimal digits
    of the version-4 UUID of the draw, and nothing else.  So the token is
    among the keys made from earlier draws exactly when one of them gave
    a UUID with the same leading 96 bits. *)
Theorem generate_uuid_collision_iff (draws : list Z) (w : world) :
  result (generate_uuid w)
  = inr (Uuid.generate_uuid (entropy w (drawn w))) /\
  (In (Uuid.generate_uuid (entropy w (drawn w)))
      (map Uuid.generate_uuid draws) <->
   exists r, In r draws /\
             Z.shiftr (Uuid.uuid4 r) 32
             = Z.shiftr (Uuid.uuid4 (entropy w (drawn w))) 32).
Proof.
  split; [reflexivity |].
  rewrite in_map_iff. split; intros [r [H1 H2]]; exists r.
  - split; [exact H2 | now apply generate_uuid_eq_iff].
  - split; [now apply generate_uuid_eq_iff | exact H1].
Qed.

(** C4, as stated, fails: after the call of the scenario the descriptor
    does not contain the name [BroadcastExtension] at all, so it holds
    no Target of that name. *)
Lemma scenario_adds_no_target :
  ~ (forall p w r rest content,
        stdin w = r :: rest -> affirmative r ->
        fs w !! p = Some (Regular content) ->
        Text.contains target_name content = false ->
        let o := add_broadcast_extension_target p w in
        result o = inr true /\
        exists content',
          fs (final o) !! p = Some (Regular content') /\
          Text.contains target_name content' = true).
Proof.
  intros H.
  destruct (H descriptor (sample_world "" ["yes"]) "yes" [] ""
              eq_refl eq_refl (sample_lookup _ _) eq_refl)
    as (_ & c & Hfs & Hc).
  destruct (add_no_write descriptor (sample_world "" ["yes"])) as [Hsame _].
  rewrite Hsame, sample_lookup in Hfs. injection Hfs as <-.
  discriminate Hc.
Qed.

(** C4, amended: on a descriptor whose text does not contain
    [BroadcastExtension], one confirmed call returns [True], generates
    fourteen identifiers that it drops, prints the manual instructions,
    and leaves the descriptor with the content it had. *)
Theorem scenario_leaves_descriptor p w r rest content :
  stdin w = r :: rest -> affirmative r ->
  fs w !! p = Some (Regular content) ->
  Text.contains target_name content = false ->
  let o := add_broadcast_extension_target p w in
  result o = inr true /\
  fs (final o) !! p = Some (Regular content) /\
  events o
  = preamble ++ EvRead p :: map EvUuid (tokens w)
             ++ EvPrint preparing :: map EvPrint manual_instructions.
Proof.
  intros Hin Hr Hfs Hc. cbv zeta.
  rewrite (add_manual p w r rest content Hin Hr Hfs Hc).
  cbn [result final events]. repeat split. exact Hfs.
Qed.

Lemma scenario_leaves_descriptor_witness :
  let o := add_broadcast_extension_target descriptor
             (sample_world "// !$*UTF8*$!" ["yes"]) in
  result o = inr true /\
  fs (final o) !! descriptor = Some (Regular "// !$*UTF8*$!") /\
  events o
  = preamble ++ EvRead descriptor
             :: map EvUuid (tokens (sample_world "// !$*UTF8*$!" ["yes"]))
             ++ EvPrint preparing :: map EvPrint manual_instructions.
Proof.
  apply (scenario_leaves_descriptor descriptor
           (sample_world "// !$*UTF8*$!" ["yes"]) "yes" []
           "// !$*UTF8*$!").
  - reflexivity.
  - reflexivity.
  - apply sample_lookup.
  - reflexivity.
Defined.

(** C5, as stated, fails: in a run where the target already exists,
    identifiers are generated. *)
Lemma identifiers_generated_when_target_exists :
  ~ (forall p w r rest content,
        stdin w = r :: rest -> affirmative r ->
        fs w !! p = Some (Regular content) ->
        Text.contains target_name content = true ->
        forall token,
          ~ In (EvUuid token)
               (events (add_broadcast_extension_target p w))).
Proof.
  intros H.
  apply (H descriptor (sample_world "BroadcastExtension" ["yes"]) "yes" []
           "BroadcastExtension" eq_refl eq_refl (sample_lookup _ _) eq_refl
           "000000000000400080000000").
  vm_compute. do 5 right. left. reflexivity.
Qed.

(** C5, amended: in every confirmed call that can read the descriptor,
    the generator is invoked fourteen times after the descriptor has
    been read and before the existence test gives its verdict, whether
    or not the target exists; the verdict itself only prints. *)
Theorem allocation_precedes_existence_test p w r rest content :
  stdin w = r :: rest -> affirmative r ->
  fs w !! p = Some (Regular content) ->
  let o := add_broadcast_extension_target p w in
  events o
  = preamble ++ EvRead p :: map EvUuid (tokens w) ++ verdict content /\
  length (tokens w) = 14%nat /\
  drawn (final o) = (14 + drawn w)%nat /\
  forallb is_print (verdict content) = true.
Proof.
  intros Hin Hr Hfs. cbv zeta.
  rewrite (add_checked p w r rest content Hin Hr Hfs).
  cbn [events final]. repeat split.
  unfold verdict. now destruct (Text.contains target_name content).
Qed.

Lemma allocation_precedes_existence_test_witness :
  let w := sample_world "BroadcastExtension" ["yes"] in
  let o := add_broadcast_extension_target descriptor w in
  events o
  = preamble ++ EvRead descriptor :: map EvUuid (tokens w)
             ++ verdict "BroadcastExtension" /\
  length (tokens w) = 14%nat /\
  drawn (final o) = (14 + drawn w)%nat /\
  forallb is_print (verdict "BroadcastExtension") = true.
Proof.
  apply (allocation_precedes_existence_test descriptor
           (sample_world "BroadcastExtension" ["yes"]) "yes" []
           "BroadcastExtension").
  - reflexivity.
  - reflexivity.
  - apply sample_lookup.
Defined.

(** C6: the exit status is 1 when the descriptor is missing; otherwise it
    is 0 when the call of [add_broadcast_extension_target] returns
    ([True] for the target prepared, [False] for the target already
    there or the operator declining) and 1 when it ends in an exception
    of [input] or [open]. *)
Theorem exit_status file w :
  result (script file w)
  = match fs w !! project_path_of file with
    | None => 1
    | Some _ =>
        match result (add_broadcast_extension_target
                        (project_path_of file) w) with
        | inr _ => 0
        | inl _ => 1
        end
    end.
Proof.
  destruct (fs w !! project_path_of file) as [e|] eqn:Hfs.
  - rewrite script_present by (rewrite Hfs; eauto). reflexivity.
  - rewrite script_missing by exact Hfs. reflexivity.
Qed.

(** C7: in every run of the script no write comes before the prompt,
    and when the operator's answer is not [yes] in some letter case the
    call prints [Aborting.], returns [False], and leaves the file system
    untouched without having read the descriptor. *)
Theorem confirmation_gate file w :
  gated false (events (script file w)) = true /\
  forall p r rest,
    stdin w = r :: rest -> ~ affirmative r ->
    let o := add_broadcast_extension_target p w in
    gated false (events o) = true /\
    result o = inr false /\
    fs (final o) = fs w /\
    events o = preamble ++ [EvPrint aborting].
Proof.
  split.
  - apply gated_no_write, script_no_write.
  - intros p r rest Hin Hr. cbv zeta.
    rewrite (add_declined p w r rest Hin Hr).
    cbn [events result final]. repeat split.
Qed.

Lemma confirmation_gate_witness :
  let w := sample_world "" ["no"] in
  let o := add_broadcast_extension_target descriptor w in
  gated false (events (script script_file w)) = true /\
  result o = inr false /\
  fs (final o) = fs w /\
  events o = preamble ++ [EvPrint aborting].
Proof.
  destruct (confirmation_gate script_file (sample_world "" ["no"]))
    as [Hgate Hdecline].
  destruct (Hdecline descriptor "no" [] eq_refl) as (_ & H1 & H2 & H3).
  - discriminate.
  - cbv zeta. repeat split; assumption.
Defined.

(** C8: every token is 24 characters long and made of the characters
    0-9 and A-F, for every draw of the entropy source. *)
Theorem generate_uuid_format (r : Z) (w : world) :
  String.length (Uuid.generate_uuid r) = 24%nat /\
  Forall (fun c => In c (list_ascii_of_string upper_hexdigits))
         (list_ascii_of_string (Uuid.generate_uuid r)) /\
  result (generate_uuid w)
  = inr (Uuid.generate_uuid (entropy w (drawn w))).
Proof.
  rewrite generate_uuid_leading. split; [| split].
  - unfold Text.upper. now rewrite length_map_string, length_hex_fixed.
  - apply upper_hex_fixed_alphabet.
  - reflexivity.
Qed.

(** C9: no run of the script, and no call of
    [add_broadcast_extension_target], changes the file system or
    performs a write: [write_pbxproj] is never called. *)
Theorem never_writes file p w :
  fs (final (script file w)) = fs w /\
  no_write (events (script file w)) = true /\
  fs (final (add_broadcast_extension_target p w)) = fs w /\
  no_write (events (add_broadcast_extension_target p w)) = true.
Proof.
  destruct (script_no_write file w) as [H1 H2].
  destruct (add_no_write p w) as [H3 H4]. auto.
Qed.

(** C10: whenever the characters [BroadcastExtension] occur anywhere in
    the descriptor text, a confirmed call reports that the target
    already exists and returns [False] without writing. *)
Theorem substring_existence_test p w r rest content pre post :
  stdin w = r :: rest -> affirmative r ->
  fs w !! p = Some (Regular content) ->
  content = pre +:+ target_name +:+ post ->
  let o := add_broadcast_extension_target p w in
  result o = inr false /\
  events o
  = preamble ++ EvRead p :: map EvUuid (tokens w)
             ++ [EvPrint already_exists] /\
  fs (final o) = fs w /\
  no_write (events o) = true.
Proof.
  intros Hin Hr Hfs Hocc. cbv zeta.
  assert (Hc : Text.contains target_name content = true)
    by (apply contains_spec; eauto).
  destruct (add_no_write p w) as [Hsame Hnw].
  split; [| split; [| split; [exact Hsame | exact Hnw]]];
    now rewrite (add_exists p w r rest content Hin Hr Hfs Hc).
Qed.

Lemma substring_existence_test_witness :
  let w := sample_world "/* BroadcastExtension.swift in Sources */"
                        ["Yes"] in
  let o := add_broadcast_extension_target descriptor w in
  result o = inr false /\
  events o
  = preamble ++ EvRead descriptor :: map EvUuid (tokens w)
             ++ [EvPrint already_exists] /\
  fs (final o) = fs w /\
  no_write (events o) = true.
Proof.
  apply (substring_existence_test descriptor
           (sample_world "/* BroadcastExtension.swift in Sources */"
                         ["Yes"])
           "Yes" [] "/* BroadcastExtension.swift in Sources */"
           "/* " ".swift in Sources */").
  - reflexivity.
  - reflexivity.
  - apply sample_lookup.
  - reflexivity.
Defined.

End Claims.

(** ** Further properties of the script *)

Section WriteRead.
Import Env Py Script Obs Cover.
Local Open Scope list_scope.




End WriteRead.

Section Outcomes.
Import Env Py Script Obs Cover.
Local Open Scope list_scope.

(** X2: a call returns [True] exactly when the operator's answer is
    affirmative, the descriptor can be read, and its text does not
    contain [BroadcastExtension]. *)
Theorem returns_true_iff p w :
  result (add_broadcast_extension_target p w) = inr true <->
  exists r rest content,
    stdin w = r :: rest /\ affirmative r /\
    fs w !! p = Some (Regular content) /\
    Text.contains target_name content = false.
Proof.
  split.
  - destruct (add_outcome_total p w)
      as [Hin | r rest Hin Hr | r rest Hin Hr Hfs | r rest content Hin Hr Hfs];
      cbn [result]; intros H; try discriminate H.
    exists r, rest, content. repeat split; try assumption.
    destruct (Text.contains target_name content);
      [discriminate H | reflexivity].
  - intros (r & rest & content & Hin & Hr & Hfs & Hc).
    now rewrite (add_manual p w r rest content Hin Hr Hfs Hc).
Qed.

(** X3: a call returns [False] in two situations that the return value
    does not tell apart: the operator's answer is not affirmative, or
    it is and the text of the descriptor contains
    [BroadcastExtension]. *)
Theorem returns_false_iff p w :
  result (add_broadcast_extension_target p w) = inr false <->
  (exists r rest, stdin w = r :: rest /\ ~ affirmative r) \/
  (exists r rest content,
      stdin w = r :: rest /\ affirmative r /\
      fs w !! p = Some (Regular content) /\
      Text.contains target_name content = true).
Proof.
  split.
  - destruct (add_outcome_total p w)
      as [Hin | r rest Hin Hr | r rest Hin Hr Hfs | r rest content Hin Hr Hfs];
      cbn [result]; intros H; try discriminate H.
    + left. now exists r, rest.
    + right. exists r, rest, content. repeat split; try assumption.
      destruct (Text.contains target_name content);
        [reflexivity | discriminate H].
  - intros [(r & rest & Hin & Hr)
           | (r & rest & content & Hin & Hr & Hfs & Hc)].
    + now rewrite (add_declined p w r rest Hin Hr).
    + now rewrite (add_exists p w r rest content Hin Hr Hfs Hc).
Qed.


End Outcomes.

Section Answers.
Import Env Py Script Obs Cover.
Local Open Scope list_scope.

Lemma ascii_lower_y c :
  Text.ascii_lower c = "y"%char -> c = "y"%char \/ c = "Y"%char.
Proof.
  destruct c as [[] [] [] [] [] [] [] []]; vm_compute; intros H;
    first [discriminate H | now left | now right].
Qed.

Lemma ascii_lower_e c :
  Text.ascii_lower c = "e"%char -> c = "e"%char \/ c = "E"%char.
Proof.
  destruct c as [[] [] [] [] [] [] [] []]; vm_compute; intros H;
    first [discriminate H | now left | now right].
Qed.

Lemma ascii_lower_s c :
  Text.ascii_lower c = "s"%char -> c = "s"%char \/ c = "S"%char.
Proof.
  destruct c as [[] [] [] [] [] [] [] []]; vm_compute; intros H;
    first [discriminate H | now left | now right].
Qed.

(** X5: the answers that let a call proceed are the eight spellings of
    [yes] in upper and lower case letters, and nothing else: no shorter
    form, no surrounding blanks. *)
Theorem affirmative_answers r : affirmative r <-> In r accepted_answers.
Proof.
  split.
  - unfold affirmative, Text.lower.
    destruct r as [|c1 [|c2 [|c3 [|c4 r]]]]; cbn [Text.map_string];
      intros H; try discriminate H.
    injection H as H1 H2 H3.
    apply ascii_lower_y in H1. apply ascii_lower_e in H2.
    apply ascii_lower_s in H3.
    destruct H1 as [-> | ->], H2 as [-> | ->], H3 as [-> | ->];
      cbn; tauto.
  - cbn. intros H.
    repeat (destruct H as [<- | H]; [reflexivity |]). contradiction.
Qed.

(** X6: a call takes one line from the operator and never a second one;
    the script takes that line only when the descriptor exists. *)
Theorem reads_one_answer file p w :
  stdin (final (add_broadcast_extension_target p w)) = tl (stdin w) /\
  stdin (final (script file w))
  = match fs w !! project_path_of file with
    | Some _ => tl (stdin w)
    | None => stdin w
    end.
Proof.
  assert (Hadd : forall q,
             stdin (final (add_broadcast_extension_target q w))
             = tl (stdin w)).
  { intros q.
    destruct (add_outcome_total q w)
      as [Hin | r rest Hin Hr | r rest Hin Hr Hfs | r rest content Hin Hr Hfs];
      cbn [final]; rewrite Hin; reflexivity. }
  split; [apply Hadd |].
  destruct (fs w !! project_path_of file) as [e|] eqn:Hfs.
  - rewrite script_present by (rewrite Hfs; eauto). cbv zeta. cbn [final].
    apply Hadd.
  - now rewrite script_missing.
Qed.

End Answers.

Section Entropy.
Import Env Py Script Obs Cover.
Local Open Scope list_scope.

Lemma filter_uuid_uuids l :
  List.filter is_uuid (map EvUuid l) = map EvUuid l.
Proof. induction l as [|t l IH]; [reflexivity |]. cbn. now rewrite IH. Qed.

Lemma filter_uuid_verdict content :
  List.filter is_uuid (verdict content) = [].
Proof. unfold verdict. now destruct (Text.contains target_name content). Qed.

Lemma filter_other_uuids l :
  List.filter (fun e => negb (is_uuid e)) (map EvUuid l) = [].
Proof. induction l as [|t l IH]; [reflexivity | exact IH]. Qed.

Lemma existsb_read_uuids l : existsb is_read (map EvUuid l) = false.
Proof. induction l as [|t l IH]; [reflexivity | exact IH]. Qed.

Lemma existsb_read_verdict content :
  existsb is_read (verdict content) = false.
Proof. unfold verdict. now destruct (Text.contains target_name content). Qed.

(** X7: a call draws its fourteen identifiers exactly when it has read
    the descriptor, from the next fourteen draws of the entropy source;
    on every other path (no answer, a declined prompt, a descriptor that
    cannot be read) it draws none. *)
Theorem draws_follow_read p w :
  let o := add_broadcast_extension_target p w in
  entropy (final o) = entropy w /\
  drawn (final o)
  = ((if existsb is_read (events o) then 14 else 0) + drawn w)%nat /\
  List.filter is_uuid (events o)
  = if existsb is_read (events o) then map EvUuid (tokens w) else [].
Proof.
  cbv zeta.
  destruct (add_outcome_total p w)
    as [Hin | r rest Hin Hr | r rest Hin Hr Hfs | r rest content Hin Hr Hfs];
    cbn [final events].
  - repeat split.
  - repeat split.
  - repeat split.
  - assert (Hread : existsb is_read
                      (preamble ++ EvRead p :: map EvUuid (tokens w)
                                ++ verdict content) = true).
    { rewrite existsb_app. apply orb_true_iff. right. reflexivity. }
    rewrite Hread. split; [reflexivity |]. split; [reflexivity |].
    rewrite List.filter_app.
    change (List.filter is_uuid preamble) with (@nil event).
    change (List.filter is_uuid
              (EvRead p :: map EvUuid (tokens w) ++ verdict content))
      with (List.filter is_uuid (map EvUuid (tokens w) ++ verdict content)).
    rewrite List.filter_app, filter_uuid_uuids, filter_uuid_verdict.
    apply app_nil_r.
Qed.

(** X8: the identifiers are dead values: with any other entropy source
    the call returns the same result, leaves the same files and input,
    consumes as many draws and shows the same lines. *)
Theorem identifiers_unused p w source :
  let o := add_broadcast_extension_target p w in
  let o' := add_broadcast_extension_target p (with_entropy w source) in
  result o' = result o /\
  fs (final o') = fs (final o) /\
  stdin (final o') = stdin (final o) /\
  drawn (final o') = drawn (final o) /\
  List.filter (fun e => negb (is_uuid e)) (events o')
  = List.filter (fun e => negb (is_uuid e)) (events o).
Proof.
  cbv zeta.
  destruct (add_outcome_total p w)
    as [Hin | r rest Hin Hr | r rest Hin Hr Hfs | r rest content Hin Hr Hfs].
  - rewrite (add_eof p (with_entropy w source) Hin). repeat split.
  - rewrite (add_declined p (with_entropy w source) r rest Hin Hr).
    repeat split.
  - rewrite (add_unreadable p (with_entropy w source) r rest Hin Hr Hfs).
    repeat split.
  - rewrite (add_checked p (with_entropy w source) r rest content Hin Hr Hfs).
    cbn [result final events].
    split; [reflexivity |]. split; [reflexivity |].
    split; [reflexivity |]. split; [reflexivity |].
    rewrite !List.filter_app.
    change (List.filter (fun e => negb (is_uuid e))
              (EvRead p :: map EvUuid (tokens (with_entropy w source))
                        ++ verdict content))
      with (EvRead p
              :: List.filter (fun e => negb (is_uuid e))
                   (map EvUuid (tokens (with_entropy w source))
                      ++ verdict content)).
    change (List.filter (fun e => negb (is_uuid e))
              (EvRead p :: map EvUuid (tokens w) ++ verdict content))
      with (EvRead p
              :: List.filter (fun e => negb (is_uuid e))
                   (map EvUuid (tokens w) ++ verdict content)).
    rewrite !List.filter_app, !filter_other_uuids. reflexivity.
Qed.

End Entropy.

Section TokenShape.
Import Text Uuid Obs Cover.

Lemma get_upper_hex_fixed n : forall i v,
  (i < n)%nat ->
  String.get i (upper (hex_fixed n v))
  = Some (ascii_upper
            (hex_digit (Z.land (Z.shiftr v (4 * Z.of_nat (n - 1 - i))) 15))).
Proof.
  induction n as [|n IH]; intros i v Hi; [lia |].
  cbn [hex_fixed upper map_string]. destruct i as [|i].
  - cbn [String.get]. do 5 f_equal. lia.
  - cbn [String.get]. fold (upper (hex_fixed n v)).
    rewrite IH by lia. do 5 f_equal. lia.
Qed.

Lemma small_bit_cases n : 0 <= n < 4 -> n = 0 \/ n = 1 \/ n = 2 \/ n = 3.
Proof. lia. Qed.

(** The four bits from bit 76 hold the version number 4. *)
Lemma uuid4_version r : Z.land (Z.shiftr (uuid4 r) 76) 15 = 4.
Proof.
  apply Z.bits_inj'. intros n Hn.
  rewrite Z.land_spec, Z.shiftr_spec by lia.
  destruct (Z.lt_ge_cases n 4) as [Hlt | Hge].
  - unfold uuid4.
    rewrite Z.lor_spec, Z.land_spec, Z.lnot_spec, !Z.shiftl_spec by lia.
    destruct (small_bit_cases n ltac:(lia)) as [-> | [-> | [-> | ->]]];
      cbn [Z.add Z.sub Z.opp Z.pos_sub Z.succ_double Z.pred_double
             Z.double Pos.pred_double];
      change (Z.testbit 61440 (0 + 76 - 64)) with true;
      change (Z.testbit 61440 (1 + 76 - 64)) with true;
      change (Z.testbit 61440 (2 + 76 - 64)) with true;
      change (Z.testbit 61440 (3 + 76 - 64)) with true;
      cbn [negb]; rewrite andb_false_r; reflexivity.
  - rewrite (Z.bits_above_log2 15) by (simpl Z.log2; lia).
    rewrite (Z.bits_above_log2 4) by (simpl Z.log2; lia).
    apply andb_false_r.
Qed.

(** Bits 63 and 62 hold the RFC 4122 variant, one and zero. *)
Lemma uuid4_variant r : Z.land (Z.shiftr (uuid4 r) 62) 3 = 2.
Proof.
  apply Z.bits_inj'. intros n Hn.
  rewrite Z.land_spec, Z.shiftr_spec by lia.
  destruct (Z.lt_ge_cases n 2) as [Hlt | Hge].
  - unfold uuid4.
    rewrite Z.lor_spec, Z.land_spec, Z.lnot_spec, Z.lor_spec, Z.land_spec,
      Z.lnot_spec, !Z.shiftl_spec by lia.
    assert (Hn01 : n = 0 \/ n = 1) by lia.
    destruct Hn01 as [-> | ->].
    + change (Z.testbit 49152 (0 + 62 - 48)) with true.
      change (Z.testbit 32768 (0 + 62 - 48)) with false.
      change (Z.testbit 61440 (0 + 62 - 64)) with false.
      change (Z.testbit 4 (0 + 62 - 76)) with false.
      cbn [negb]. now rewrite andb_false_r.
    + change (Z.testbit 49152 (1 + 62 - 48)) with true.
      change (Z.testbit 32768 (1 + 62 - 48)) with true.
      change (Z.testbit 61440 (1 + 62 - 64)) with false.
      change (Z.testbit 4 (1 + 62 - 76)) with false.
      cbn [negb]. now rewrite andb_false_r.
  - rewrite (Z.bits_above_log2 3) by (simpl Z.log2; lia).
    rewrite (Z.bits_above_log2 2) by (simpl Z.log2; lia).
    apply andb_false_r.
Qed.

Lemma uuid4_variant_nibble r :
  In (Z.land (Z.shiftr (uuid4 r) 60) 15) [8; 9; 10; 11].
Proof.
  pose proof (uuid4_variant r) as H.
  pose proof (uuid4_range r) as [H0 _].
  change 3 with (Z.ones 2) in H. change 15 with (Z.ones 4).
  rewrite Z.land_ones, Z.shiftr_div_pow2 in * by lia.
  change (2 ^ 62) with (2 ^ 60 * 2 ^ 2) in H.
  rewrite <- Z.div_div in H by lia.
  set (x := uuid4 r / 2 ^ 60) in *.
  change (2 ^ 2) with 4 in H. change (2 ^ 4) with 16.
  clearbody x. clear H0. cbn [In]. Z.div_mod_to_equations. lia.
Qed.

(** X9: whatever the draw, the thirteenth character of a token is the
    version digit [4] and the seventeenth is one of [8], [9], [A], [B]:
    six of the 96 bits a token shows are fixed. *)
Theorem token_version_and_variant r :
  String.get 12 (generate_uuid r) = Some "4"%char /\
  exists c, String.get 16 (generate_uuid r) = Some c /\ In c variant_digits.
Proof.
  rewrite generate_uuid_leading. split.
  - rewrite get_upper_hex_fixed by lia.
    rewrite Z.shiftr_shiftr by lia.
    change (32 + 4 * Z.of_nat (24 - 1 - 12)) with 76.
    now rewrite uuid4_version.
  - rewrite get_upper_hex_fixed by lia.
    rewrite Z.shiftr_shiftr by lia.
    change (32 + 4 * Z.of_nat (24 - 1 - 16)) with 60.
    eexists. split; [reflexivity |].
    pose proof (uuid4_variant_nibble r) as H. cbn [In] in H.
    destruct H as [<- | [<- | [<- | [<- | []]]]]; vm_compute; tauto.
Qed.

End TokenShape.

Section Main.
Import Env Py Script Obs Cover.
Local Open Scope list_scope.

(** X10: the descriptor is looked for under the directory two levels
    above the script, at [ios/pulse.xcodeproj/project.pbxproj],
    whatever the names of the script and of its directory; for a script
    path of fewer than two components it is looked for under the
    anchor itself. *)
Theorem project_path_layout a root dir name :
  project_path_of (Path a (root ++ [dir; name]))
  = Path a (root ++ descriptor_parts) /\
  project_path_of (Path a [name]) = Path a descriptor_parts /\
  project_path_of (Path a []) = Path a descriptor_parts.
Proof.
  split; [| split; reflexivity].
  unfold project_path_of, parent, child. cbn [anchor parts].
  change (root ++ [dir; name]) with (root ++ [dir] ++ [name]).
  rewrite app_assoc, removelast_last, removelast_last.
  rewrite <- !app_assoc. reflexivity.
Qed.

(** X11: when the descriptor does not exist the script says so, naming
    the path, and ends with status 1 without prompting: the operator's
    input, the entropy source and the file system are as they were. *)
Theorem missing_descriptor_asks_nothing file w :
  fs w !! project_path_of file = None ->
  script file w
  = Run 1 w [ EvExists (project_path_of file);
              EvPrint ("❌ Project file not found: "
                       +:+ path_str (project_path_of file)) ].
Proof.
  intros Hfs. unfold script. now rewrite (main_missing file w Hfs).
Qed.

Lemma missing_descriptor_asks_nothing_witness :
  script script_file (World ∅ ["yes"] (fun _ => 0) 0)
  = Run 1 (World ∅ ["yes"] (fun _ => 0) 0)
        [ EvExists (project_path_of script_file);
          EvPrint ("❌ Project file not found: "
                   +:+ path_str (project_path_of script_file)) ].
Proof.
  apply (missing_descriptor_asks_nothing script_file
           (World ∅ ["yes"] (fun _ => 0) 0)).
  reflexivity.
Defined.

Lemma add_prompts p w :
  In (EvPrompt continue_prompt)
     (events (add_broadcast_extension_target p w)).
Proof.
  assert (Hpre : In (EvPrompt continue_prompt) preamble)
    by (cbn; tauto).
  destruct (add_outcome_total p w)
    as [Hin | r rest Hin Hr | r rest Hin Hr Hfs | r rest content Hin Hr Hfs];
    cbn [events]; try exact Hpre; apply in_or_app; now left.
Qed.

(** X12: the script prompts the operator exactly when something exists
    at the descriptor path, also when that entry cannot be read. *)
Theorem prompted_iff_descriptor_exists file w :
  In (EvPrompt continue_prompt) (events (script file w)) <->
  is_Some (fs w !! project_path_of file).
Proof.
  destruct (fs w !! project_path_of file) as [e|] eqn:Hfs.
  - rewrite script_present by (rewrite Hfs; eauto). cbv zeta. cbn [events].
    split; [eauto |]. intros _. apply in_or_app. right. apply add_prompts.
  - rewrite script_missing by exact Hfs. cbn [events]. split.
    + intros [H | [H | []]]; discriminate H.
    + intros [? H]. discriminate H.
Qed.

End Main.
